(** * Ukraine inflation analysis: descriptive and rolling statistics

    A shallow embedding of [lenis_ukraine_inflation.py].  The script is a
    straight-line pandas pipeline: load [panel.csv], take the column ['UA'],
    drop its missing entries, compute six descriptive statistics and two
    12-month rolling statistics, draw a figure, and write two CSV files.

    Numeric model.  A float64 cell is an [option Qc]: [None] is NaN and
    [Some q] a number.  Sums, differences, products and quotients are the
    exact rational ones, so rounding is outside this development; the square
    root taken by [std] is a section variable, about which nothing is
    assumed.  The pandas reductions used by the script ([dropna], [mean],
    [median], [std], [min], [max], [rolling(window).mean/std], [to_csv]) are
    written out with the defaults the script relies on ([skipna=True],
    [ddof=1], [min_periods=window], [na_rep=''], [index=False]). *)

From Stdlib Require Import QArith Qcanon.
From stdpp Require Import base list sorting numbers strings.

Local Open Scope Qc_scope.

(** ** Numbers *)

Definition Qc_of_nat (n : nat) : Qc := Qc_of_Z (Z.of_nat n).

Definition Qc_min (x y : Qc) : Qc := if decide (x ≤ y) then x else y.
Definition Qc_max (x y : Qc) : Qc := if decide (x ≤ y) then y else x.

Definition sum (xs : list Qc) : Qc := foldr Qcplus 0 xs.

(** A float64 cell; [None] is NaN. *)
Abbreviation cell := (option Qc).

(** Binary float subtraction: NaN if either operand is. *)
Definition cell_sub (a b : cell) : cell :=
  match a, b with
  | Some x, Some y => Some (x - y)
  | _, _ => None
  end.

(** ** pandas: Series and DataFrame *)

(** A Series keeps, for each entry, its index label and its value. *)
Abbreviation Series := (list (nat * cell)).

(** The table [pd.read_csv] returns: named float64 columns of equal length
    (the spec's Table), in file order. *)
Abbreviation DataFrame := (list (string * list cell)).

Definition columns (df : DataFrame) : list string := df.*1.

(** [df.shape] *)
Definition shape (df : DataFrame) : nat * nat :=
  (match df with [] => 0%nat | (_, c) :: _ => length c end, length df).

(** [name in df.columns] *)
Definition has_column (name : string) (df : DataFrame) : bool :=
  bool_decide (name ∈ columns df).

(** [df[name]]: the column with the default RangeIndex; [None] stands for
    the KeyError of an absent name. *)
Definition getitem (df : DataFrame) (name : string) : option Series :=
  (λ c, zip (seq 0 (length c)) c) <$> (list_find (λ p, p.1 = name) df ≫= λ r, Some r.2.2).

(** [s.values] *)
Definition values (s : Series) : list cell := s.*2.

(** [s.index] *)
Definition index (s : Series) : list nat := s.*1.

(** [s.dropna()]: the entries that are not NaN, labels kept. *)
Definition dropna (s : Series) : Series := filter (λ p, is_Some p.2) s.

(** The numbers of a float array, NaN skipped. *)
Definition notna (l : list cell) : list Qc := omap id l.

(** [s.mean()] with [skipna=True]: NaN on no valid entry. *)
Definition nanmean (l : list cell) : cell :=
  let xs := notna l in
  match xs with
  | [] => None
  | _ => Some (sum xs / Qc_of_nat (length xs))
  end.

(** Sum of squared deviations from the mean. *)
Definition ssqdm (xs : list Qc) : Qc :=
  let avg := sum xs / Qc_of_nat (length xs) in
  sum ((λ x, (x - avg) * (x - avg)) <$> xs).

(** [nanvar]: NaN when the count of valid entries is at most [ddof]. *)
Definition nanvar (ddof : nat) (l : list cell) : cell :=
  let xs := notna l in
  if decide (length xs ≤ ddof)%nat then None
  else Some (ssqdm xs / Qc_of_nat (length xs - ddof)).

(** [s.median()]: the middle of the sorted valid entries. *)
Definition nanmedian (l : list cell) : cell :=
  let xs := merge_sort Qcle (notna l) in
  let n := length xs in
  match n with
  | O => None
  | _ =>
    if Nat.even n
    then Some ((nth (n / 2 - 1) xs 0 + nth (n / 2) xs 0) / 2)
    else Some (nth (n / 2) xs 0)
  end.

(** [s.min()], [s.max()] with [skipna=True]. *)
Definition nanmin (l : list cell) : cell :=
  match notna l with
  | [] => None
  | x :: xs => Some (foldl Qc_min x xs)
  end.

Definition nanmax (l : list cell) : cell :=
  match notna l with
  | [] => None
  | x :: xs => Some (foldl Qc_max x xs)
  end.

(** *** Rolling windows *)

(** [l[start:stop]] *)
Definition slice {A} (l : list A) (start stop : nat) : list A :=
  take (stop - start) (drop start l).

(** The fixed-width window indexer: the window of position [i] is
    [[start, stop)] with [stop = i + 1] and [start = max (stop - window) 0]. *)
Definition window_bounds (window n : nat) : list (nat * nat) :=
  (λ i, (i + 1 - window, i + 1)%nat) <$> seq 0 n.

(** [s.rolling(window, min_periods).agg()]: a position with fewer than
    [min_periods] valid entries in its window holds NaN. *)
Definition roll (agg : list cell → cell) (window min_periods : nat)
    (s : Series) : Series :=
  zip (index s)
      ((λ b, let w := slice (values s) b.1 b.2 in
             if decide (min_periods ≤ length (notna w))%nat then agg w else None)
         <$> window_bounds window (length s)).

(** ** Output tables *)

Inductive column : Type :=
  | object_column (xs : list string)
  | float64_column (xs : list cell).

Definition column_length (c : column) : nat :=
  match c with
  | object_column xs => length xs
  | float64_column xs => length xs
  end.

(** A frame built by [pd.DataFrame(dict)], columns in insertion order. *)
Abbreviation Frame := (list (string * column)).

(** [pd.DataFrame(dict)]: [None] stands for the ValueError raised when the
    arrays differ in length. *)
Definition make_frame (d : list (string * column)) : option Frame :=
  match d with
  | [] => Some []
  | (_, c) :: r =>
    if forallb (λ p, column_length p.2 =? column_length c)%nat r
    then Some d else None
  end.

Definition frame_length (f : Frame) : nat :=
  match f with [] => 0%nat | (_, c) :: _ => column_length c end.

(** A field of a written CSV line. *)
Inductive field : Type :=
  | text_field (s : string)
  | float_field (x : Qc).

(** [to_csv] writes a NaN as [na_rep], whose default is the empty string. *)
Definition na_rep : string := EmptyString.

Definition write_cell (c : cell) : field :=
  match c with
  | Some x => float_field x
  | None => text_field na_rep
  end.

Definition column_fields (c : column) : list field :=
  match c with
  | object_column xs => text_field <$> xs
  | float64_column xs => write_cell <$> xs
  end.

(** The data lines of the frame, one per row. *)
Definition frame_rows (f : Frame) : list (list field) :=
  (λ i, omap (λ p, column_fields p.2 !! i) f) <$> seq 0 (frame_length f).

(** [f.to_csv(path, index=False)]: the header line, then the rows. *)
Definition to_csv (f : Frame) : list (list field) :=
  (text_field <$> f.*1) :: frame_rows f.

(** ** Console and files *)

(** A piece of a printed line: literal text or a formatted value. *)
Inductive piece : Type :=
  | text (s : string)
  | fixed4 (x : cell)
  | int (n : nat)
  | pair_of_int (r c : nat)
  | list_of_str (l : list string).

Abbreviation line := (list piece).

Fixpoint repeat_string (s : string) (n : nat) : string :=
  match n with
  | O => EmptyString
  | S k => s +:+ repeat_string s k
  end.

Definition rule : line := [text (repeat_string "=" 80)].

Inductive file : Type :=
  | csv (lines : list (list field))
  | png.

(** What one run of the script leaves behind. *)
Record run : Type := {
  stdout : list line;
  files : list (string * file);
  exit_status : Z
}.

(** How Section 5 of the script (matplotlib and statsmodels) ends. *)
Inductive plotting : Type :=
  | plotted
  | plotting_raised (saved : bool).

(** ** Instances used to run the script on concrete tables *)

(** A square root to four decimal places, rounded down. *)
Definition sqrt_4dp (x : Qc) : Qc :=
  Q2Qc (Z.sqrt (Qnum (this x) * 100000000 / Zpos (Qden (this x))) # 10000).

(** A plotting stage that returns on every series. *)
Definition always_plotted (ua_ts rolling_mean rolling_vol : list (nat * option Qc))
  : plotting := plotted.

(** A panel with two regions and no column ['UA']. *)
Definition panel_without_ua : list (string * list (option Qc)) :=
  [("DE", [Some (Qc_of_nat 2); None; Some (Qc_of_nat 3)]);
   ("FR", [Some (Qc_of_nat 1); Some (Qc_of_nat 1); None])].

(** A panel whose column ['UA'] has a gap and is not in order. *)
Definition panel_with_ua : list (string * list (option Qc)) :=
  [("DE", [Some (Qc_of_nat 2); None; Some (Qc_of_nat 3); None; None]);
   ("UA", [Some (Qc_of_nat 3); None; Some (Qc_of_nat 1); Some (Qc_of_nat 4);
           Some (Qc_of_nat 2)])].

(** Its column ['UA'] as [df['UA']] returns it. *)
Definition ua_with_gap : list (nat * option Qc) :=
  [(0%nat, Some (Qc_of_nat 3)); (1%nat, None); (2%nat, Some (Qc_of_nat 1));
   (3%nat, Some (Qc_of_nat 4)); (4%nat, Some (Qc_of_nat 2))].

(** The scenario panel: ['UA'] holds 1.0, ..., 24.0 next to another region. *)
Definition panel_1_to_24 : list (string * list (option Qc)) :=
  [("DE", (λ n, Some (Qc_of_nat (2 * n))) <$> seq 1 24);
   ("UA", (λ n, Some (Qc_of_nat n)) <$> seq 1 24)].


(** The observations of [ua_with_gap] in the same order, gaps elsewhere. *)
Definition ua_gap_moved : list (nat * option Qc) :=
  [(0%nat, None); (1%nat, Some (Qc_of_nat 3)); (2%nat, Some (Qc_of_nat 1));
   (3%nat, Some (Qc_of_nat 4)); (4%nat, None); (5%nat, Some (Qc_of_nat 2))].

(** The scenario column as [df['UA']] returns it. *)
Definition series_1_to_24 : list (nat * option Qc) :=
  zip (seq 0 24) ((λ n, Some (Qc_of_nat n)) <$> seq 1 24).

(** A panel with the ['UA'] column of [panel_with_ua] and other regions. *)
Definition panel_other_regions : list (string * list (option Qc)) :=
  [("UA", [Some (Qc_of_nat 3); None; Some (Qc_of_nat 1); Some (Qc_of_nat 4);
           Some (Qc_of_nat 2)]);
   ("PL", [None; None; Some (Qc_of_nat 7); None; Some (Qc_of_nat 9)])].

(** The columns of a small two-column frame. *)
Definition two_columns : list (string * column) :=
  [("Statistic", object_column ["Mean"; "Median"]);
   ("Value", float64_column [Some (Qc_of_nat 1); None])].

(** ** The script *)

Section Script.

(** The square root of the floating-point unit. *)
Variable sqrt : Qc → Qc.

(** How the plotting calls of Section 5 end on the series, the rolling
    mean and the rolling volatility they are given. *)
Variable section5 : Series → Series → Series → plotting.

(** [s.std()], with the default [ddof=1]. *)
Definition nanstd (l : list cell) : cell := sqrt <$> nanvar 1 l.

(** [s.rolling(window=w).mean()] and [.std()]: [min_periods] defaults to
    the window size. *)
Definition rolling_mean (window : nat) (s : Series) : Series :=
  roll nanmean window window s.

Definition rolling_std (window : nat) (s : Series) : Series :=
  roll nanstd window window s.

(** *** Section 2: the extracted series *)

Definition ua_ts (df : DataFrame) : option Series :=
  dropna <$> getitem df "UA".

(** *** Section 3: descriptive statistics *)

Definition mean_value (ua_ts : Series) : cell := nanmean (values ua_ts).
Definition median_value (ua_ts : Series) : cell := nanmedian (values ua_ts).
Definition std_value (ua_ts : Series) : cell := nanstd (values ua_ts).
Definition min_value (ua_ts : Series) : cell := nanmin (values ua_ts).
Definition max_value (ua_ts : Series) : cell := nanmax (values ua_ts).

(** *** Section 4: rolling statistics *)

Definition rolling_mean_12m (ua_ts : Series) : Series :=
  rolling_mean 12 ua_ts.

Definition rolling_volatility_12m (ua_ts : Series) : Series :=
  rolling_std 12 ua_ts.

(** *** Section 6: the two exported frames *)

Definition summary_df (ua_ts : Series) : option Frame :=
  make_frame
    [("Statistic",
      object_column
        ["Mean"; "Median"; "Std Dev"; "Min"; "Max"; "Range";
         "Avg Rolling Mean (12m)"; "Avg Rolling Vol (12m)"; "Observations"]);
     ("Value",
      float64_column
        [mean_value ua_ts; median_value ua_ts; std_value ua_ts;
         min_value ua_ts; max_value ua_ts;
         cell_sub (max_value ua_ts) (min_value ua_ts);
         nanmean (values (rolling_mean_12m ua_ts));
         nanmean (values (rolling_volatility_12m ua_ts));
         Some (Qc_of_nat (length ua_ts))])].

Definition export_df (ua_ts : Series) : option Frame :=
  make_frame
    [("Inflation", float64_column (values ua_ts));
     ("Rolling_Mean_12m", float64_column (values (rolling_mean_12m ua_ts)));
     ("Rolling_Volatility_12m",
      float64_column (values (rolling_volatility_12m ua_ts)))].

(** *** The printed lines *)

Definition section1 (df : DataFrame) : list line :=
  [rule; [text "SECTION 1: LOADING DATA"]; rule;
   [text "Data loaded successfully. Shape: ";
    pair_of_int (shape df).1 (shape df).2];
   [text "Columns: "; list_of_str (columns df)];
   []].

Definition section2_found (ua_ts : Series) : list line :=
  [[text "Ukraine column 'UA' found successfully"];
   [text "Number of observations: "; int (length ua_ts)];
   [text "Data type: "; text "float64"];
   []].

Definition section2_missing (df : DataFrame) : list line :=
  [[text "Warning: 'UA' column not found. Available columns:"];
   [list_of_str (columns df)]].

Definition section3 (ua_ts : Series) : list line :=
  [rule; [text "SECTION 3: DESCRIPTIVE STATISTICS"]; rule;
   [text "Mean:              "; fixed4 (mean_value ua_ts)];
   [text "Median:            "; fixed4 (median_value ua_ts)];
   [text "Standard Dev:      "; fixed4 (std_value ua_ts)];
   [text "Minimum:           "; fixed4 (min_value ua_ts)];
   [text "Maximum:           "; fixed4 (max_value ua_ts)];
   [text "Range:             ";
    fixed4 (cell_sub (max_value ua_ts) (min_value ua_ts))];
   []].

Definition section4 (ua_ts : Series) : list line :=
  [rule; [text "SECTION 4: ROLLING STATISTICS (12-MONTH WINDOW)"]; rule;
   [text "Rolling Mean (12-month):"];
   [text "  - Mean of rolling means: ";
    fixed4 (nanmean (values (rolling_mean_12m ua_ts)))];
   [text "  - Std of rolling means:  ";
    fixed4 (nanstd (values (rolling_mean_12m ua_ts)))];
   [];
   [text "Rolling Volatility (12-month):"];
   [text "  - Mean of rolling volatility: ";
    fixed4 (nanmean (values (rolling_volatility_12m ua_ts)))];
   [text "  - Std of rolling volatility:  ";
    fixed4 (nanstd (values (rolling_volatility_12m ua_ts)))];
   []].

Definition section5_saved : list line :=
  [[text "Visualization saved as 'ukraine_inflation_analysis.png'"]].

Definition closing : list line :=
  [[]; rule; [text "Script execution completed successfully!"]; rule].

(** An uncaught exception: the traceback goes to stderr and the
    interpreter leaves with status 1. *)
Definition raised (out : list line) (written : list (string * file)) : run :=
  {| stdout := out; files := written; exit_status := 1 |}.

(** *** The module body, top to bottom *)

Definition main (df : DataFrame) : run :=
  let out := section1 df
             ++ [rule; [text "SECTION 2: EXTRACTING UKRAINE DATA"]; rule] in
  if has_column "UA" df then
    match ua_ts df with
    | None => raised out []
    | Some ua_ts =>
      let out := out ++ section2_found ua_ts ++ section3 ua_ts
                 ++ section4 ua_ts
                 ++ [rule; [text "SECTION 5: CREATING VISUALIZATIONS"]; rule] in
      match section5 ua_ts (rolling_mean_12m ua_ts)
              (rolling_volatility_12m ua_ts) with
      | plotting_raised false => raised out []
      | plotting_raised true =>
        raised (out ++ section5_saved)
               [("ukraine_inflation_analysis.png", png)]
      | plotted =>
        let out := out ++ section5_saved
                   ++ [[]; rule; [text "SECTION 6: ANALYSIS COMPLETE"]; rule] in
        let written := [("ukraine_inflation_analysis.png", png)] in
        match summary_df ua_ts with
        | None => raised out written
        | Some summary =>
          let out := out ++ [[text "Summary statistics exported to 'ukraine_inflation_summary.csv'"]] in
          let written :=
            written ++ [("ukraine_inflation_summary.csv", csv (to_csv summary))] in
          match export_df ua_ts with
          | None => raised out written
          | Some export =>
            {| stdout := out ++ [[text "Time series data exported to 'ukraine_inflation_timeseries.csv'"]]
                         ++ closing;
               files := written ++ [("ukraine_inflation_timeseries.csv",
                                     csv (to_csv export))];
               exit_status := 0 |}
          end
        end
      end
    end
  else
    (* [exit()] is [sys.exit(None)]: the interpreter leaves with status 0. *)
    {| stdout := out ++ section2_missing df; files := []; exit_status := 0 |}.

(** The Value of the summary row whose Statistic is [label]. *)
Definition statistic_value (f : Frame) (label : string) : option cell :=
  match f with
  | [(_, object_column labels); (_, float64_column vals)] =>
    list_find (λ l, l = label) labels ≫= λ r, vals !! r.1
  | _ => None
  end.

(** The arithmetic mean of a sequence ignoring its undefined entries,
    in the spec's words: the total of the defined entries over their
    count, and undefined when there is none.  Compared with [nanmean]
    below. *)
Definition mean_ignoring_undefined (l : list (option Qc)) : option Qc :=
  let total := foldr (λ c acc, match c with Some x => x + acc | None => acc end)
                     0 l in
  let count := length (filter is_Some l) in
  if decide (count = 0)%nat then None else Some (total / Qc_of_nat count).

(** The closed trailing window [S[i-w+1..i]], read entry by entry. *)
Definition trailing_window (S : list Qc) (w i : nat) : list Qc :=
  (λ k, nth (i + 1 - w + k) S 0) <$> seq 0 w.

Definition arithmetic_mean (xs : list Qc) : Qc :=
  sum xs / Qc_of_nat (length xs).

(** The sample standard deviation, denominator one less than the count. *)
Definition sample_std (xs : list Qc) : Qc :=
  sqrt (sum ((λ x, (x - arithmetic_mean xs) * (x - arithmetic_mean xs)) <$> xs)
        / Qc_of_nat (length xs - 1)).

(** The median in the spec's words, on a sequence already sorted: the
    average of the two central elements for an even length, the single
    central element for an odd one. *)
Definition median_of_sorted (sorted : list Qc) : Qc :=
  let n := length sorted in
  if Nat.even n
  then (nth (n / 2 - 1) sorted 0 + nth (n / 2) sorted 0) / 2
  else nth (n / 2) sorted 0.

(** The scenario column: 1.0, 2.0, ..., 24.0. *)
Definition ua_1_to_24 : list (option Qc) :=
  (λ n, Some (Qc_of_nat n)) <$> seq 1 24.

(** ** Properties of the pandas operations *)

Lemma values_dropna (s : Series) :
  values (dropna s) = Some <$> notna (values s).
Proof.
  unfold values, dropna, notna.
  induction s as [|[i [x|]] s IH]; [done| |].
  - rewrite filter_cons_True by (simpl; eauto).
    rewrite !fmap_cons. simpl. by f_equal.
  - rewrite filter_cons_False by (simpl; by intros [? ?]).
    by rewrite fmap_cons.
Qed.

Lemma notna_Some (xs : list Qc) : notna (Some <$> xs) = xs.
Proof. unfold notna. induction xs; simpl; by f_equal. Qed.

Lemma notna_dropna (s : Series) :
  notna (values (dropna s)) = notna (values s).
Proof. by rewrite values_dropna, notna_Some. Qed.

Lemma length_dropna (s : Series) :
  length (dropna s) = length (notna (values s)).
Proof.
  rewrite <-(length_fmap snd (dropna s)).
  change (snd <$> dropna s) with (values (dropna s)).
  by rewrite values_dropna, length_fmap.
Qed.

Lemma length_values (s : Series) : length (values s) = length s.
Proof. apply length_fmap. Qed.

Lemma length_window_bounds (w n : nat) : length (window_bounds w n) = n.
Proof. unfold window_bounds. by rewrite length_fmap, length_seq. Qed.

Lemma values_roll agg (w m : nat) (s : Series) :
  values (roll agg w m s)
  = (λ b, let win := slice (values s) b.1 b.2 in
          if decide (m ≤ length (notna win))%nat then agg win else None)
      <$> window_bounds w (length s).
Proof.
  unfold values at 1, roll. apply snd_zip.
  unfold index. rewrite !length_fmap, length_window_bounds. lia.
Qed.

Lemma length_roll agg (w m : nat) (s : Series) :
  length (roll agg w m s) = length s.
Proof.
  rewrite <-length_values, values_roll, length_fmap.
  apply length_window_bounds.
Qed.

(** ** The extracted series *)

(** C9: dropping the missing values of a series that already went
    through [dropna] changes nothing, labels included; so extracting a
    second time gives the series of the first extraction. *)
Theorem dropna_idempotent (s : Series) : dropna (dropna s) = dropna s.
Proof.
  unfold dropna. induction s as [|p s IH]; [done|].
  destruct (decide (is_Some p.2)) as [Hp|Hp].
  - rewrite !filter_cons_True by done. by f_equal.
  - by rewrite filter_cons_False.
Qed.

Lemma length_notna (l : list (option Qc)) :
  length (notna l) = length (filter is_Some l).
Proof.
  unfold notna. induction l as [|[x|] l IH]; [done| |].
  - rewrite filter_cons_True by eauto. simpl. by f_equal.
  - rewrite filter_cons_False by (by intros [? ?]). done.
Qed.

Lemma length_notna_le (l : list (option Qc)) :
  (length (notna l) ≤ length l)%nat.
Proof. rewrite length_notna. apply length_filter. Qed.

Lemma getitem_None (df : DataFrame) (name : string) :
  has_column name df = false → getitem df name = None.
Proof.
  unfold has_column, getitem, columns. intros Hin.
  apply bool_decide_eq_false in Hin.
  assert (list_find (λ p : string * list (option Qc), p.1 = name) df = None)
    as ->; [|done].
  apply list_find_None, Forall_forall. intros p Hp Heq.
  apply Hin. rewrite <-Heq. by apply list_elem_of_fmap_2.
Qed.

Lemma getitem_Some (df : DataFrame) (name : string) :
  has_column name df = true → ∃ c, (name, c) ∈ df
    ∧ getitem df name = Some (zip (seq 0 (length c)) c).
Proof.
  unfold has_column, getitem, columns. intros Hin.
  apply bool_decide_eq_true in Hin.
  apply list_elem_of_fmap in Hin as ([n c] & -> & Hin). simpl.
  destruct (list_find_elem_of (λ p : string * list (option Qc), p.1 = n)
              df (n, c) Hin eq_refl) as [[k [n' c']] Hfind].
  rewrite Hfind. simpl. exists c'. split; [|done].
  apply list_find_Some in Hfind as (Hk & Hn & _). simpl in Hn. subst n'.
  by eapply list_elem_of_lookup_2.
Qed.

(** ** Section 2: a table without the target column *)

(** C2, as the script has it: on a table without the column ['UA'] the
    extraction has no result, the run prints the banners of Sections 1 and
    2, the warning and the list of the table's own column names, writes no
    file, and stops there through [exit()], whose status is 0. *)
Theorem missing_column_halts (df : DataFrame) :
  has_column "UA" df = false →
  ua_ts df = None
  ∧ stdout (main df)
    = section1 df
      ++ [rule; [text "SECTION 2: EXTRACTING UKRAINE DATA"]; rule]
      ++ [[text "Warning: 'UA' column not found. Available columns:"];
          [list_of_str (columns df)]]
  ∧ files (main df) = []
  ∧ exit_status (main df) = 0%Z.
Proof.
  intros Hno. unfold ua_ts, main. rewrite Hno, (getitem_None _ _ Hno).
  split; [done|]. split; [|done].
  cbn [stdout]. by rewrite <-app_assoc.
Qed.

(** ** Section 3: descriptive statistics *)

(** C5: on a series of exactly one observation the standard deviation is
    NaN: [std_value] has a value without raising, and that value is not a
    number, zero in particular. *)
Theorem std_value_single (ua_ts : Series) :
  length ua_ts = 1%nat →
  std_value ua_ts = None ∧ std_value ua_ts ≠ Some 0.
Proof.
  intros Hlen. unfold std_value, nanstd, nanvar.
  pose proof (length_notna_le (values ua_ts)) as Hle.
  rewrite length_values, Hlen in Hle.
  rewrite decide_True by done. by split.
Qed.

Lemma Qc_min_spec (x y : Qc) :
  (Qc_min x y = x ∨ Qc_min x y = y) ∧ Qc_min x y ≤ x ∧ Qc_min x y ≤ y.
Proof.
  unfold Qc_min. destruct (decide (x ≤ y)) as [Hle|Hnle].
  - auto using Qcle_refl.
  - apply Qcnot_le_lt, Qclt_le_weak in Hnle. auto using Qcle_refl.
Qed.

Lemma Qc_max_spec (x y : Qc) :
  (Qc_max x y = x ∨ Qc_max x y = y) ∧ x ≤ Qc_max x y ∧ y ≤ Qc_max x y.
Proof.
  unfold Qc_max. destruct (decide (x ≤ y)) as [Hle|Hnle].
  - auto using Qcle_refl.
  - apply Qcnot_le_lt, Qclt_le_weak in Hnle. auto using Qcle_refl.
Qed.

Lemma foldl_Qc_min (xs : list Qc) (x : Qc) :
  foldl Qc_min x xs ∈ x :: xs ∧ ∀ y, y ∈ x :: xs → foldl Qc_min x xs ≤ y.
Proof.
  revert x. induction xs as [|a xs IH]; intros x; simpl.
  - split; [by left|]. intros y ->%list_elem_of_singleton. apply Qcle_refl.
  - destruct (IH (Qc_min x a)) as [Hin Hle].
    destruct (Qc_min_spec x a) as (Hcase & Hx & Ha). split.
    + apply elem_of_cons in Hin as [->|Hin].
      * destruct Hcase as [->| ->]; [by left|by right; left].
      * by right; right.
    + intros y [->|[->|Hy]%elem_of_cons]%elem_of_cons.
      * eapply Qcle_trans; [apply Hle; by left|done].
      * eapply Qcle_trans; [apply Hle; by left|done].
      * apply Hle. by right.
Qed.

Lemma foldl_Qc_max (xs : list Qc) (x : Qc) :
  foldl Qc_max x xs ∈ x :: xs ∧ ∀ y, y ∈ x :: xs → y ≤ foldl Qc_max x xs.
Proof.
  revert x. induction xs as [|a xs IH]; intros x; simpl.
  - split; [by left|]. intros y ->%list_elem_of_singleton. apply Qcle_refl.
  - destruct (IH (Qc_max x a)) as [Hin Hle].
    destruct (Qc_max_spec x a) as (Hcase & Hx & Ha). split.
    + apply elem_of_cons in Hin as [->|Hin].
      * destruct Hcase as [->| ->]; [by left|by right; left].
      * by right; right.
    + intros y [->|[->|Hy]%elem_of_cons]%elem_of_cons.
      * eapply Qcle_trans; [done|apply Hle; by left].
      * eapply Qcle_trans; [done|apply Hle; by left].
      * apply Hle. by right.
Qed.

(** C8: for a non-empty extracted series, [min_value] and [max_value] are
    its least and greatest observations, and the Value of the Range row
    of the summary is exactly their difference. *)
Theorem range_is_max_minus_min (col : Series) :
  dropna col ≠ [] →
  ∃ lo hi f,
    min_value (dropna col) = Some lo ∧ max_value (dropna col) = Some hi
    ∧ Some lo ∈ values (dropna col) ∧ Some hi ∈ values (dropna col)
    ∧ (∀ x, Some x ∈ values (dropna col) → lo ≤ x ∧ x ≤ hi)
    ∧ summary_df (dropna col) = Some f
    ∧ statistic_value f "Range" = Some (Some (hi - lo)).
Proof.
  intros Hne. unfold min_value, max_value, nanmin, nanmax, summary_df.
  unfold min_value, max_value, nanmin, nanmax.
  assert (notna (values (dropna col)) ≠ []) as Hxs.
  { intros Hnil. apply Hne, length_zero_iff_nil.
    by rewrite length_dropna, <-notna_dropna, Hnil. }
  rewrite values_dropna in *. rewrite notna_Some in *.
  destruct (notna (values col)) as [|x xs]; [done|].
  destruct (foldl_Qc_min xs x) as [Hlo_in Hlo].
  destruct (foldl_Qc_max xs x) as [Hhi_in Hhi].
  eexists _, _, _. split_and!; try reflexivity.
  - by apply list_elem_of_fmap_2.
  - by apply list_elem_of_fmap_2.
  - intros y Hy. apply list_elem_of_fmap in Hy as (y' & [= ->] & Hy). auto.
Qed.

Lemma merge_sort_sorted_permutation (xs sorted : list Qc) :
  Sorted Qcle sorted → sorted ≡ₚ xs → merge_sort Qcle xs = sorted.
Proof.
  intros Hsorted Hperm. apply (Sorted_unique Qcle).
  - apply (Sorted_merge_sort Qcle).
  - done.
  - by rewrite merge_sort_Permutation.
Qed.

(** C6: the median of a non-empty extracted series, read off any sorted
    arrangement of its observations: the average of the two central
    elements when the length is even, the central element when it is odd. *)
Theorem median_central (col : Series) (sorted : list Qc) :
  dropna col ≠ [] →
  Sorted Qcle sorted → sorted ≡ₚ notna (values (dropna col)) →
  median_value (dropna col) = Some (median_of_sorted sorted)
  ∧ length sorted = length (dropna col).
Proof.
  intros Hne Hsorted Hperm.
  assert (length sorted = length (dropna col)) as Hlen.
  { rewrite Hperm, notna_dropna. symmetry. apply length_dropna. }
  split; [|done].
  unfold median_value, nanmedian, median_of_sorted.
  rewrite (merge_sort_sorted_permutation _ _ Hsorted Hperm).
  destruct (length sorted) as [|n] eqn:Hn;
    [|by destruct (Nat.even (S n))].
  destruct Hne. apply length_zero_iff_nil. by rewrite <-Hlen.
Qed.

(** ** Section 4: rolling statistics *)

Lemma slice_fmap {A B} (f : A → B) (l : list A) (a b : nat) :
  slice (f <$> l) a b = f <$> slice l a b.
Proof. unfold slice. by rewrite fmap_take, fmap_drop. Qed.

Lemma length_slice {A} (l : list A) (a b : nat) :
  (b ≤ length l)%nat → length (slice l a b) = (b - a)%nat.
Proof. intros Hb. unfold slice. rewrite length_take, length_drop. lia. Qed.

Lemma slice_trailing_window (S : list Qc) (w i : nat) :
  (w ≤ i + 1)%nat → (i < length S)%nat →
  slice S (i + 1 - w) (i + 1) = trailing_window S w i.
Proof.
  intros Hw Hi. unfold slice, trailing_window. apply list_eq. intros k.
  rewrite list_lookup_fmap.
  destruct (decide (k < w)%nat) as [Hk|Hk].
  - rewrite lookup_take_lt, lookup_drop, lookup_seq_lt by lia.
    simpl. destruct (nth_lookup_or_length S (i + 1 - w + k) 0); [done|lia].
  - rewrite lookup_take_ge, lookup_ge_None_2; [done| |lia].
    rewrite length_seq. lia.
Qed.

(** On a series without missing entries, a rolling aggregate with
    [min_periods = window] is NaN before the first full window and the
    aggregate of the trailing window from there on. *)
Lemma roll_lookup agg (w : nat) (s : Series) (xs : list Qc) (i : nat) :
  values s = Some <$> xs → (i < length xs)%nat →
  values (roll agg w w s) !! i
  = Some (if decide (i + 1 < w)%nat then None
          else agg (Some <$> trailing_window xs w i)).
Proof.
  intros Hs Hi.
  assert (length s = length xs) as Hlen
    by (by rewrite <-length_values, Hs, length_fmap).
  rewrite values_roll, list_lookup_fmap. unfold window_bounds.
  rewrite list_lookup_fmap, lookup_seq_lt by lia.
  cbn [fmap option_fmap option_map fst snd Nat.add]. f_equal.
  rewrite Hs, slice_fmap, notna_Some.
  destruct (decide (i + 1 < w)%nat) as [Hlt|Hge].
  - rewrite length_slice by lia. rewrite decide_False by lia. done.
  - rewrite length_slice by lia. rewrite decide_True by lia.
    by rewrite slice_trailing_window by lia.
Qed.

Lemma length_trailing_window (S : list Qc) (w i : nat) :
  length (trailing_window S w i) = w.
Proof. unfold trailing_window. by rewrite length_fmap, length_seq. Qed.

Lemma nanmean_numbers (xs : list Qc) :
  xs ≠ [] → nanmean (Some <$> xs) = Some (arithmetic_mean xs).
Proof. intros Hne. unfold nanmean. rewrite notna_Some. by destruct xs. Qed.

Lemma nanstd_numbers (xs : list Qc) :
  (1 < length xs)%nat → nanstd (Some <$> xs) = Some (sample_std xs).
Proof.
  intros Hlen. unfold nanstd, nanvar. rewrite notna_Some.
  by rewrite decide_False by lia.
Qed.

(** C1: with [S] the extracted series and the window of 12, the rolling
    mean and the rolling standard deviation at a position [i] of [S] are
    NaN when [i < 11]; from [i = 11] on they are the arithmetic mean and the
    sample standard deviation (denominator 11) of [S[i-11..i]]. *)
Theorem rolling_12m_windows (col : Series) (i : nat) :
  (i < length (dropna col))%nat →
  values (rolling_mean_12m (dropna col)) !! i
  = Some (if decide (i < 12 - 1)%nat then None
          else Some (arithmetic_mean
                       (trailing_window (notna (values (dropna col))) 12 i)))
  ∧ values (rolling_volatility_12m (dropna col)) !! i
    = Some (if decide (i < 12 - 1)%nat then None
            else Some (sample_std
                         (trailing_window (notna (values (dropna col))) 12 i))).
Proof.
  intros Hi. rewrite length_dropna, <-notna_dropna in Hi.
  unfold rolling_mean_12m, rolling_volatility_12m, rolling_mean, rolling_std.
  assert (values (dropna col) = Some <$> notna (values (dropna col))) as Hs
    by (by rewrite values_dropna, notna_Some).
  rewrite (roll_lookup nanmean 12 _ _ i Hs Hi),
    (roll_lookup nanstd 12 _ _ i Hs Hi).
  destruct (decide (i + 1 < 12)%nat) as [Hlt|Hge].
  - by rewrite !decide_True by lia.
  - rewrite !decide_False by lia.
    rewrite nanmean_numbers, nanstd_numbers; [done| |].
    + rewrite length_trailing_window. lia.
    + intros Hnil. apply (f_equal length) in Hnil.
      by rewrite length_trailing_window in Hnil.
Qed.

(** ** Section 6: the exported tables *)

Lemma nanmean_ignores_undefined (l : list (option Qc)) :
  nanmean l = mean_ignoring_undefined l.
Proof.
  unfold nanmean, mean_ignoring_undefined. rewrite <-length_notna.
  assert (foldr (λ (c : option Qc) acc,
                   match c with Some x => x + acc | None => acc end) 0 l
          = sum (notna l)) as ->.
  { unfold notna, sum. induction l as [|[x|] l IH]; simpl; by f_equal. }
  by destruct (notna l).
Qed.

(** C10: on a table that has the column ['UA'], the Value of the
    Observations row is the length of the extracted series, which is the
    number of entries of that column that are not missing. *)
Theorem observations_row (df : DataFrame) :
  has_column "UA" df = true →
  ∃ col s f,
    getitem df "UA" = Some col ∧ ua_ts df = Some s
    ∧ summary_df s = Some f
    ∧ statistic_value f "Observations" = Some (Some (Qc_of_nat (length s)))
    ∧ length s = length (filter is_Some (values col)).
Proof.
  intros Hhas. destruct (getitem_Some _ _ Hhas) as (c & _ & Hget).
  unfold ua_ts. rewrite Hget. eexists _, _, _.
  split_and!; try reflexivity.
  by rewrite length_dropna, length_notna.
Qed.

(** C3, as the script has it: the summary frame has the columns Statistic
    and Value and nine rows, labelled in order Mean, Median, Std Dev, Min,
    Max, Range, Avg Rolling Mean (12m), Avg Rolling Vol (12m), Observations;
    the Values of the two Avg Rolling rows are the arithmetic means of the
    rolling mean and rolling volatility sequences, undefined entries
    ignored. *)
Theorem summary_table_rows (ua_ts : Series) :
  ∃ f,
    summary_df ua_ts = Some f
    ∧ f.*1 = ["Statistic"; "Value"]
    ∧ length (frame_rows f) = 9%nat
    ∧ (λ row : list field, row !! 0%nat) <$> frame_rows f
      = (λ l, Some (text_field l))
          <$> ["Mean"; "Median"; "Std Dev"; "Min"; "Max"; "Range";
               "Avg Rolling Mean (12m)"; "Avg Rolling Vol (12m)";
               "Observations"]
    ∧ statistic_value f "Avg Rolling Mean (12m)"
      = Some (mean_ignoring_undefined (values (rolling_mean_12m ua_ts)))
    ∧ statistic_value f "Avg Rolling Vol (12m)"
      = Some (mean_ignoring_undefined (values (rolling_volatility_12m ua_ts))).
Proof.
  eexists. split; [reflexivity|].
  rewrite <-!nanmean_ignores_undefined. by split_and!.
Qed.

Lemma export_df_Some (ua_ts : Series) :
  export_df ua_ts
  = Some [("Inflation", float64_column (values ua_ts));
          ("Rolling_Mean_12m", float64_column (values (rolling_mean_12m ua_ts)));
          ("Rolling_Volatility_12m",
           float64_column (values (rolling_volatility_12m ua_ts)))].
Proof.
  unfold export_df, make_frame, rolling_mean_12m, rolling_volatility_12m,
    rolling_mean, rolling_std.
  cbn [forallb column_length snd].
  by rewrite !length_values, !length_roll, Nat.eqb_refl.
Qed.

Lemma row_of_three (n1 n2 n3 : string) (a b c : list (option Qc))
    (i : nat) (x m v : option Qc) :
  a !! i = Some x → b !! i = Some m → c !! i = Some v →
  omap (λ p : string * column, column_fields p.2 !! i)
       [(n1, float64_column a); (n2, float64_column b); (n3, float64_column c)]
  = [write_cell x; write_cell m; write_cell v].
Proof.
  intros Ha Hb Hc. cbn [omap list_omap column_fields snd].
  by rewrite !list_lookup_fmap, Ha, Hb, Hc.
Qed.

(** C4: the time-series frame has the three columns Inflation,
    Rolling_Mean_12m and Rolling_Volatility_12m and one row per retained
    observation; row [i] holds the [i]-th observation, rolling mean and
    rolling volatility, and a rolling entry that is undefined is written as
    the writer's missing-value marker [na_rep], not as a number, so never
    as zero. *)
Theorem export_table (ua_ts : Series) :
  ∃ f,
    export_df ua_ts = Some f
    ∧ f.*1 = ["Inflation"; "Rolling_Mean_12m"; "Rolling_Volatility_12m"]
    ∧ length (frame_rows f) = length ua_ts
    ∧ ∀ i, (i < length ua_ts)%nat →
        ∃ x m v,
          values ua_ts !! i = Some x
          ∧ values (rolling_mean_12m ua_ts) !! i = Some m
          ∧ values (rolling_volatility_12m ua_ts) !! i = Some v
          ∧ frame_rows f !! i = Some [write_cell x; write_cell m; write_cell v]
          ∧ (m = None → write_cell m = text_field na_rep
                        ∧ ∀ q, write_cell m ≠ float_field q)
          ∧ (v = None → write_cell v = text_field na_rep
                        ∧ ∀ q, write_cell v ≠ float_field q).
Proof.
  eexists. split; [apply export_df_Some|]. split; [done|].
  unfold frame_rows. cbn [frame_length column_length].
  rewrite length_fmap, length_seq, length_values. split; [done|].
  intros i Hi.
  destruct (lookup_lt_is_Some_2 (values ua_ts) i) as [x Hx];
    [by rewrite length_values|].
  destruct (lookup_lt_is_Some_2 (values (rolling_mean_12m ua_ts)) i)
    as [m Hm]; [by rewrite length_values; unfold rolling_mean_12m,
                   rolling_mean; rewrite length_roll|].
  destruct (lookup_lt_is_Some_2 (values (rolling_volatility_12m ua_ts)) i)
    as [v Hv]; [by rewrite length_values; unfold rolling_volatility_12m,
                   rolling_std; rewrite length_roll|].
  exists x, m, v. split_and!; try done.
  - rewrite list_lookup_fmap, lookup_seq_lt by done.
    cbn [fmap option_fmap option_map Nat.add]. f_equal.
    by apply (row_of_three _ _ _ _ _ _ i x m v).
  - by intros ->.
  - by intros ->.
Qed.

(** ** The scenario of 24 monthly values *)

Lemma cell_eq_this (c d : option Qc) : this <$> c = this <$> d → c = d.
Proof.
  destruct c as [x|], d as [y|]; simpl; try done.
  intros [= Heq]. f_equal. apply Qc_is_canon. by rewrite Heq.
Qed.

Lemma getitem_values (df : DataFrame) (name : string) (c : list (option Qc)) :
  values <$> getitem df name = Some c →
  getitem df name = Some (zip (seq 0 (length c)) c).
Proof.
  unfold getitem.
  destruct (list_find _ df) as [[k [n c']]|]; [|done]. simpl.
  unfold values. rewrite snd_zip by (rewrite length_seq; lia).
  by intros [= ->].
Qed.

(** C7: when the column ['UA'] holds 1.0, 2.0, ..., 24.0, the mean and the
    median are 12.5, the range is 23, the rolling mean at index 11 is 6.5
    and the rolling mean at each index from 0 to 10 is NaN. *)
Theorem scenario_1_to_24 (df : DataFrame) :
  values <$> getitem df "UA" = Some ua_1_to_24 →
  ∃ s,
    ua_ts df = Some s
    ∧ mean_value s = Some (Q2Qc (25 # 2))
    ∧ median_value s = Some (Q2Qc (25 # 2))
    ∧ cell_sub (max_value s) (min_value s) = Some (Q2Qc 23)
    ∧ values (rolling_mean_12m s) !! 11%nat = Some (Some (Q2Qc (13 # 2)))
    ∧ ∀ i, (i ≤ 10)%nat → values (rolling_mean_12m s) !! i = Some None.
Proof.
  intros Hcol%getitem_values. unfold ua_ts. rewrite Hcol.
  eexists. split; [reflexivity|].
  split_and!; try (apply cell_eq_this; vm_compute; reflexivity).
  - vm_compute. do 2 f_equal. by apply Qc_is_canon.
  - intros i Hi.
    do 11 (destruct i as [|i]; [vm_compute; reflexivity|]). lia.
Qed.

(** ** The whole run *)


(** ** Further properties of the statistics *)

Lemma Qc_of_nat_0 : Qc_of_nat 0 = 0.
Proof. apply Z2Qc_inj_0. Qed.

Lemma Qc_of_nat_S (n : nat) : Qc_of_nat (S n) = 1 + Qc_of_nat n.
Proof.
  unfold Qc_of_nat. rewrite Nat2Z.inj_succ, <-Z.add_1_l, Z2Qc_inj_add.
  by rewrite Z2Qc_inj_1.
Qed.



Lemma Qcle_div_r (x y d : Qc) : 0 < d → x * d ≤ y → x ≤ y / d.
Proof.
  intros Hd Hle. apply (Qcmult_lt_0_le_reg_r _ _ d Hd).
  replace (y / d * d) with y; [done|].
  field. by apply not_symmetry, Qclt_not_eq.
Qed.

Lemma Qcle_div_l (x y d : Qc) : 0 < d → y ≤ x * d → y / d ≤ x.
Proof.
  intros Hd Hle. apply (Qcmult_lt_0_le_reg_r _ _ d Hd).
  replace (y / d * d) with y; [done|].
  field. by apply not_symmetry, Qclt_not_eq.
Qed.



(** What [nanmin] and [nanmax] return on a non-empty list of numbers. *)
Lemma nanmin_nanmax_numbers (xs : list Qc) :
  xs ≠ [] →
  ∃ lo hi,
    nanmin (Some <$> xs) = Some lo ∧ nanmax (Some <$> xs) = Some hi
    ∧ lo ∈ xs ∧ hi ∈ xs ∧ Forall (λ x, lo ≤ x ∧ x ≤ hi) xs.
Proof.
  intros Hne. unfold nanmin, nanmax. rewrite notna_Some.
  destruct xs as [|x xs]; [done|].
  destruct (foldl_Qc_min xs x) as [Hlo_in Hlo].
  destruct (foldl_Qc_max xs x) as [Hhi_in Hhi].
  eexists _, _. split_and!; try done.
  apply Forall_forall. auto.
Qed.

Lemma dropna_nonempty (col : Series) :
  dropna col ≠ [] → notna (values col) ≠ [].
Proof.
  intros Hne Hnil. apply Hne, length_zero_iff_nil.
  by rewrite length_dropna, Hnil.
Qed.


Lemma Qc_two_pos : 0 < 2.
Proof. reflexivity. Qed.

Lemma median_of_sorted_bounds (sorted : list Qc) (lo hi : Qc) :
  sorted ≠ [] → Forall (λ x, lo ≤ x ∧ x ≤ hi) sorted →
  lo ≤ median_of_sorted sorted ∧ median_of_sorted sorted ≤ hi.
Proof.
  intros Hne Hall. unfold median_of_sorted.
  assert (0 < length sorted)%nat as Hlen by (destruct sorted; [done|simpl; lia]).
  assert (∀ i, (i < length sorted)%nat →
            lo ≤ nth i sorted 0 ∧ nth i sorted 0 ≤ hi) as Hnth.
  { intros i Hi. destruct (nth_lookup_or_length sorted i 0) as [Hl|?]; [|lia].
    by apply (Forall_lookup_1 _ _ _ _ Hall Hl). }
  assert (length sorted / 2 < length sorted)%nat as Hmid
    by (apply Nat.div_lt; lia).
  destruct (Nat.even (length sorted)).
  - destruct (Hnth (length sorted / 2 - 1)%nat ltac:(lia)) as [Ha1 Ha2].
    destruct (Hnth (length sorted / 2)%nat Hmid) as [Hb1 Hb2].
    split.
    + apply Qcle_div_r; [apply Qc_two_pos|].
      replace (lo * 2) with (lo + lo) by ring. by apply Qcplus_le_compat.
    + apply Qcle_div_l; [apply Qc_two_pos|].
      replace (hi * 2) with (hi + hi) by ring. by apply Qcplus_le_compat.
  - by apply Hnth.
Qed.

Lemma nanmedian_numbers (xs : list Qc) :
  xs ≠ [] →
  nanmedian (Some <$> xs) = Some (median_of_sorted (merge_sort Qcle xs)).
Proof.
  intros Hne. unfold nanmedian, median_of_sorted. rewrite notna_Some.
  assert (length (merge_sort Qcle xs) = length xs) as Hlen
    by (by rewrite merge_sort_Permutation).
  destruct (length (merge_sort Qcle xs)) as [|n] eqn:Hn.
  - destruct xs; [done|simpl in Hlen; lia].
  - by destruct (Nat.even (S n)).
Qed.

(** X2: The median of a non-empty extracted series lies between its minimum
    and its maximum, and when the number of observations is odd it is one
    of the observations. *)
Theorem median_between_min_and_max (col : Series) :
  dropna col ≠ [] →
  ∃ lo md hi,
    min_value (dropna col) = Some lo ∧ median_value (dropna col) = Some md
    ∧ max_value (dropna col) = Some hi ∧ lo ≤ md ∧ md ≤ hi
    ∧ (Nat.even (length (dropna col)) = false →
       Some md ∈ values (dropna col)).
Proof.
  intros Hne.
  assert (length (dropna col) = length (merge_sort Qcle (notna (values col))))
    as Hlen by (by rewrite merge_sort_Permutation, length_dropna).
  apply dropna_nonempty in Hne.
  unfold min_value, median_value, max_value. rewrite values_dropna.
  destruct (nanmin_nanmax_numbers _ Hne) as (lo & hi & -> & -> & _ & _ & Hall).
  rewrite (nanmedian_numbers _ Hne).
  assert (merge_sort Qcle (notna (values col)) ≠ []) as Hne'.
  { intros Hnil. apply Hne, Permutation_nil.
    by rewrite <-(merge_sort_Permutation Qcle (notna (values col))), Hnil. }
  rewrite <-(merge_sort_Permutation Qcle (notna (values col))) in Hall.
  destruct (median_of_sorted_bounds _ lo hi Hne' Hall) as [Hlo Hhi].
  eexists _, _, _. split_and!; try done.
  intros Hodd. apply list_elem_of_fmap_2.
  apply list_elem_of_In.
  apply (Permutation_in _ (merge_sort_Permutation Qcle (notna (values col)))).
  apply list_elem_of_In.
  unfold median_of_sorted. rewrite <-Hlen, Hodd.
  destruct (nth_lookup_or_length (merge_sort Qcle (notna (values col)))
              (length (dropna col) / 2) 0) as [Hl|Hge].
  - by eapply list_elem_of_lookup_2.
  - assert (length (dropna col) / 2 < length (dropna col))%nat.
    { apply Nat.div_lt; [|lia]. rewrite Hlen.
      destruct (merge_sort Qcle (notna (values col))); [done|simpl; lia]. }
    lia.
Qed.

(** *** The descriptive statistics do not depend on the order *)









(** *** The radicand of the standard deviation *)







(** ** Further properties of the rolling statistics *)

Lemma roll_lookup_short agg (w : nat) (s : Series) (i : nat) :
  (i < length s)%nat → (i + 1 < w)%nat →
  values (roll agg w w s) !! i = Some None.
Proof.
  intros Hi Hw. rewrite values_roll, list_lookup_fmap. unfold window_bounds.
  rewrite list_lookup_fmap, lookup_seq_lt by done.
  cbn [fmap option_fmap option_map fst snd Nat.add]. f_equal.
  pose proof (length_notna_le (slice (values s) (i + 1 - w) (i + 1))) as Hle.
  rewrite length_slice in Hle by (rewrite length_values; lia).
  by rewrite decide_False by lia.
Qed.

Lemma index_roll agg (w m : nat) (s : Series) :
  index (roll agg w m s) = index s.
Proof.
  unfold index at 1, roll. apply fst_zip.
  unfold index. rewrite !length_fmap, length_window_bounds. lia.
Qed.

Lemma notna_replicate_None (n : nat) : notna (replicate n (@None Qc)) = [].
Proof. unfold notna. by induction n. Qed.

Lemma values_roll_short agg (w : nat) (s : Series) :
  (length s < w)%nat → values (roll agg w w s) = replicate (length s) None.
Proof.
  intros Hlen. apply list_eq. intros i.
  destruct (decide (i < length s)%nat) as [Hi|Hi].
  - rewrite roll_lookup_short by lia. symmetry. by apply lookup_replicate_2.
  - rewrite !lookup_ge_None_2; [done| |].
    + rewrite length_replicate. lia.
    + rewrite length_values, length_roll. lia.
Qed.

(** X5: A series of fewer than 12 entries has no rolling statistic at all:
    both rolling sequences are NaN throughout, and the two Avg Rolling
    rows of the summary are NaN. *)
Theorem short_series_has_no_rolling_statistics (ua_ts : Series) :
  (length ua_ts < 12)%nat →
  values (rolling_mean_12m ua_ts) = replicate (length ua_ts) None
  ∧ values (rolling_volatility_12m ua_ts) = replicate (length ua_ts) None
  ∧ ∃ f, summary_df ua_ts = Some f
         ∧ statistic_value f "Avg Rolling Mean (12m)" = Some None
         ∧ statistic_value f "Avg Rolling Vol (12m)" = Some None.
Proof.
  intros Hlen.
  assert (values (rolling_mean_12m ua_ts) = replicate (length ua_ts) None)
    as Hm by (by apply values_roll_short).
  assert (values (rolling_volatility_12m ua_ts) = replicate (length ua_ts) None)
    as Hv by (by apply values_roll_short).
  split; [done|]. split; [done|].
  eexists. split; [reflexivity|].
  cbn [statistic_value]. rewrite Hm, Hv. unfold nanmean.
  rewrite notna_replicate_None. by split.
Qed.

(** X6: The rolling sequences carry the index labels of the series they are
    computed from, so they have its length and line up with it entry by
    entry. *)
Theorem rolling_series_aligned (ua_ts : Series) :
  index (rolling_mean_12m ua_ts) = index ua_ts
  ∧ index (rolling_volatility_12m ua_ts) = index ua_ts
  ∧ length (rolling_mean_12m ua_ts) = length ua_ts
  ∧ length (rolling_volatility_12m ua_ts) = length ua_ts.
Proof.
  unfold rolling_mean_12m, rolling_volatility_12m, rolling_mean, rolling_std.
  by rewrite !index_roll, !length_roll.
Qed.

Lemma values_roll_ext agg (w m : nat) (s1 s2 : Series) :
  values s1 = values s2 → values (roll agg w m s1) = values (roll agg w m s2).
Proof.
  intros Hv. rewrite !values_roll, Hv.
  by rewrite <-(length_values s1), <-(length_values s2), Hv.
Qed.

(** X7: Where the gaps of the column fall does not matter: two columns with
    the same observations in the same order give the same summary frame
    and the same time-series frame. *)
Theorem gap_positions_do_not_matter (col1 col2 : Series) :
  notna (values col1) = notna (values col2) →
  summary_df (dropna col1) = summary_df (dropna col2)
  ∧ export_df (dropna col1) = export_df (dropna col2).
Proof.
  intros Hobs.
  assert (values (dropna col1) = values (dropna col2)) as Hv
    by (by rewrite !values_dropna, Hobs).
  assert (length (dropna col1) = length (dropna col2)) as Hlen
    by (by rewrite !length_dropna, Hobs).
  unfold summary_df, export_df, mean_value, median_value, std_value,
    min_value, max_value, rolling_mean_12m, rolling_volatility_12m,
    rolling_mean, rolling_std.
  rewrite (values_roll_ext nanmean 12 12 _ _ Hv),
    (values_roll_ext nanstd 12 12 _ _ Hv), Hv, Hlen.
  done.
Qed.

Lemma values_roll_numbers agg (w : nat) (s : Series) (xs : list Qc) :
  values s = Some <$> xs →
  values (roll agg w w s)
  = (λ i, if decide (i + 1 < w)%nat then None
          else agg (Some <$> trailing_window xs w i)) <$> seq 0 (length xs).
Proof.
  intros Hs. apply list_eq. intros i.
  assert (length s = length xs) as Hlen
    by (by rewrite <-length_values, Hs, length_fmap).
  destruct (decide (i < length xs)%nat) as [Hi|Hi].
  - rewrite (roll_lookup agg w s xs i Hs Hi).
    by rewrite list_lookup_fmap, lookup_seq_lt.
  - rewrite !lookup_ge_None_2; [done| |].
    + rewrite length_fmap, length_seq. lia.
    + rewrite length_values, length_roll. lia.
Qed.

Lemma notna_fmap_Some {A} (g : A → Qc) (l : list A) :
  notna ((λ i, Some (g i)) <$> l) = g <$> l.
Proof. unfold notna. induction l; simpl; by f_equal. Qed.

Lemma notna_app (l1 l2 : list (option Qc)) :
  notna (l1 ++ l2) = notna l1 ++ notna l2.
Proof. unfold notna. apply omap_app. Qed.

Lemma notna_roll_numbers agg (g : list Qc → Qc) (w : nat) (s : Series)
    (xs : list Qc) :
  (0 < w)%nat → (w ≤ length xs)%nat → values s = Some <$> xs →
  (∀ i, agg (Some <$> trailing_window xs w i)
        = Some (g (trailing_window xs w i))) →
  notna (values (roll agg w w s))
  = (λ i, g (trailing_window xs w i)) <$> seq (w - 1) (length xs - (w - 1)).
Proof.
  intros Hw Hlen Hs Hagg. rewrite (values_roll_numbers agg w s xs Hs).
  replace (length xs) with ((w - 1) + (length xs - (w - 1)))%nat at 1 by lia.
  rewrite seq_app, fmap_app, notna_app. simpl.
  assert (notna ((λ i, if decide (i + 1 < w)%nat then None
                       else agg (Some <$> trailing_window xs w i))
                   <$> seq 0 (w - 1)) = []) as ->.
  { rewrite <-(notna_replicate_None (w - 1)). f_equal.
    apply list_eq. intros i. rewrite list_lookup_fmap.
    destruct (decide (i < w - 1)%nat) as [Hi|Hi].
    - rewrite lookup_seq_lt, lookup_replicate_2 by done. simpl.
      by rewrite decide_True by lia.
    - rewrite lookup_ge_None_2 by (rewrite length_seq; lia).
      symmetry. apply lookup_ge_None_2. rewrite length_replicate. lia. }
  rewrite <-notna_fmap_Some. simpl. f_equal.
  apply list_fmap_ext. intros k i Hi.
  apply lookup_seq in Hi as [-> _].
  rewrite decide_False by lia. apply Hagg.
Qed.

(** X8: On an extracted series of [n ≥ 12] observations exactly [n - 11]
    rolling means and [n - 11] rolling volatilities are defined: the ones
    of the windows ending at positions 11, ..., [n - 1], in that order. *)
Theorem rolling_defined_entries (col : Series) :
  (12 ≤ length (dropna col))%nat →
  notna (values (rolling_mean_12m (dropna col)))
  = (λ i, arithmetic_mean (trailing_window (notna (values (dropna col))) 12 i))
      <$> seq 11 (length (dropna col) - 11)
  ∧ notna (values (rolling_volatility_12m (dropna col)))
    = (λ i, sample_std (trailing_window (notna (values (dropna col))) 12 i))
        <$> seq 11 (length (dropna col) - 11).
Proof.
  intros Hlen.
  assert (values (dropna col) = Some <$> notna (values (dropna col))) as Hs
    by (by rewrite values_dropna, notna_Some).
  assert (length (dropna col) = length (notna (values (dropna col)))) as Hn
    by (by rewrite notna_dropna, length_dropna).
  unfold rolling_mean_12m, rolling_volatility_12m, rolling_mean, rolling_std.
  rewrite Hn in *. split.
  - apply (notna_roll_numbers nanmean arithmetic_mean 12); [lia|done|done|].
    intros i. apply nanmean_numbers. intros Hnil.
    apply (f_equal length) in Hnil.
    by rewrite length_trailing_window in Hnil.
  - apply (notna_roll_numbers nanstd sample_std 12); [lia|done|done|].
    intros i. apply nanstd_numbers. rewrite length_trailing_window. lia.
Qed.







(** ** Further properties of the extraction *)

Lemma StronglySorted_seq (a n : nat) : StronglySorted lt (seq a n).
Proof.
  revert a. induction n as [|n IH]; intros a; simpl; constructor; [done|].
  apply Forall_forall. intros k Hk%elem_of_seq. lia.
Qed.

Lemma StronglySorted_sublist {A} (R : relation A) (l1 l2 : list A) :
  l1 `sublist_of` l2 → StronglySorted R l2 → StronglySorted R l1.
Proof.
  induction 1 as [|x l1 l2 Hsub IH|x l1 l2 Hsub IH]; intros Hsorted.
  - constructor.
  - apply StronglySorted_inv in Hsorted as [Hl2 Hx].
    constructor; [by apply IH|].
    apply Forall_forall. intros y Hy.
    apply (proj1 (Forall_forall _ _) Hx). by apply (sublist_subseteq _ _ Hsub).
  - apply StronglySorted_inv in Hsorted as [Hl2 _]. by apply IH.
Qed.

Lemma getitem_zip (df : DataFrame) (name : string) (col : Series) :
  getitem df name = Some col →
  ∃ c, (name, c) ∈ df ∧ col = zip (seq 0 (length c)) c.
Proof.
  unfold getitem. intros Hget.
  destruct (list_find (λ p : string * list (option Qc), p.1 = name) df)
    as [[k [n c]]|] eqn:Hfind; [|done].
  simpl in Hget. injection Hget as <-. exists c. split; [|done].
  apply list_find_Some in Hfind as (Hk & Hn & _). simpl in Hn. subst n.
  by eapply list_elem_of_lookup_2.
Qed.

Lemma lookup_zip_seq (c : list (option Qc)) (i k : nat) (v : option Qc) :
  zip (seq 0 (length c)) c !! i = Some (k, v) ↔ k = i ∧ c !! i = Some v.
Proof.
  rewrite lookup_zip_with_Some. split.
  - intros (x & y & [= -> ->] & Hx & Hy). apply lookup_seq in Hx as [-> _].
    done.
  - intros [-> Hv]. exists i, v. split_and!; [done| |done].
    apply lookup_seq. split; [done|]. by eapply lookup_lt_Some.
Qed.

(** X11: The extracted series keeps the row labels of the table: it holds
    exactly the pairs (row, value) of the column whose value is not
    missing, in the order of the rows, so its labels are strictly
    increasing and are not renumbered. *)
Theorem extraction_keeps_row_labels (df : DataFrame) (col : Series) :
  getitem df "UA" = Some col →
  index col = seq 0 (length col)
  ∧ dropna col `sublist_of` col
  ∧ (∀ k v, (k, v) ∈ dropna col ↔ is_Some v ∧ col !! k = Some (k, v))
  ∧ StronglySorted lt (index (dropna col)).
Proof.
  intros (c & _ & ->)%getitem_zip.
  assert (length (zip (seq 0 (length c)) c) = length c) as Hlen
    by (rewrite length_zip_with, length_seq; lia).
  assert (index (zip (seq 0 (length c)) c) = seq 0 (length c)) as Hidx
    by (apply fst_zip; rewrite length_seq; lia).
  split; [by rewrite Hlen|].
  split; [apply sublist_filter|].
  split.
  - intros k v. unfold dropna. rewrite list_elem_of_filter. simpl.
    split; intros [Hv Hin]; (split; [done|]).
    + apply list_elem_of_lookup in Hin as [i Hi].
      pose proof Hi as [-> _]%lookup_zip_seq. done.
    + by eapply list_elem_of_lookup_2.
  - apply (StronglySorted_sublist lt _ (index (zip (seq 0 (length c)) c))).
    + unfold index, dropna. apply fmap_sublist, sublist_filter.
    + rewrite Hidx. apply StronglySorted_seq.
Qed.

(** X12: A column whose entries are all missing (an empty column included)
    gives an empty series: the five statistics and the range are NaN, the
    Observations row is 0, and the time-series file is only its header. *)
Theorem all_missing_column (col : Series) :
  Forall (λ p, p.2 = None) col →
  dropna col = []
  ∧ mean_value (dropna col) = None ∧ median_value (dropna col) = None
  ∧ std_value (dropna col) = None
  ∧ min_value (dropna col) = None ∧ max_value (dropna col) = None
  ∧ ∃ f e,
      summary_df (dropna col) = Some f
      ∧ statistic_value f "Range" = Some None
      ∧ statistic_value f "Observations" = Some (Some (Qc_of_nat 0))
      ∧ export_df (dropna col) = Some e
      ∧ to_csv e = [[text_field "Inflation"; text_field "Rolling_Mean_12m";
                     text_field "Rolling_Volatility_12m"]].
Proof.
  intros Hall.
  assert (dropna col = []) as ->.
  { unfold dropna. induction Hall as [|p l Hp _ IH]; [done|].
    rewrite filter_cons_False; [done|]. rewrite Hp. by intros [? ?]. }
  split_and!; try done. by eexists _, _.
Qed.

(** X13: A series of one observation [x] has [x] as its mean, median, minimum
    and maximum, and a range of 0. *)
Theorem single_observation (col : Series) (k : nat) (x : Qc) :
  dropna col = [(k, Some x)] →
  mean_value (dropna col) = Some x ∧ median_value (dropna col) = Some x
  ∧ min_value (dropna col) = Some x ∧ max_value (dropna col) = Some x
  ∧ cell_sub (max_value (dropna col)) (min_value (dropna col)) = Some 0.
Proof.
  intros ->. split_and!; try done.
  - unfold mean_value, nanmean. simpl. f_equal.
    rewrite Qc_of_nat_S, Qc_of_nat_0. field. done.
  - unfold max_value, min_value, nanmax, nanmin. simpl. f_equal. ring.
Qed.

(** ** Further properties of the run *)

Lemma has_column_getitem (df : DataFrame) (name : string) :
  has_column name df = true ↔ is_Some (getitem df name).
Proof.
  split.
  - intros (c & _ & ->)%getitem_Some. by eexists.
  - intros [col Hcol]. destruct (has_column name df) eqn:Hhas; [done|].
    by rewrite (getitem_None _ _ Hhas) in Hcol.
Qed.


(** X15: Only the column ['UA'] reaches the files: two tables with the same
    ['UA'] column leave the same files and the same exit status, whatever
    their other columns hold. *)
Theorem other_columns_do_not_matter (df1 df2 : DataFrame) :
  getitem df1 "UA" = getitem df2 "UA" →
  files (main df1) = files (main df2)
  ∧ exit_status (main df1) = exit_status (main df2).
Proof.
  intros Hget.
  assert (has_column "UA" df1 = has_column "UA" df2) as Hhas.
  { destruct (has_column "UA" df1) eqn:H1, (has_column "UA" df2) eqn:H2;
      try done.
    - apply has_column_getitem in H1. rewrite Hget in H1.
      apply has_column_getitem in H1. congruence.
    - apply has_column_getitem in H2. rewrite <-Hget in H2.
      apply has_column_getitem in H2. congruence. }
  unfold main, ua_ts. rewrite Hhas, Hget.
  destruct (has_column "UA" df2); [|done].
  destruct (getitem df2 "UA") as [col|]; [|done]. simpl.
  destruct (section5 _ _ _) as [|[|]]; try done.
  by destruct (export_df (dropna col)).
Qed.

(** *** The written tables are rectangular *)

Lemma length_column_fields (c : column) :
  length (column_fields c) = column_length c.
Proof. destruct c; simpl; by rewrite length_fmap. Qed.

Lemma length_row (f : list (string * column)) (n i : nat) :
  Forall (λ p, column_length p.2 = n) f → (i < n)%nat →
  length (omap (λ p : string * column, column_fields p.2 !! i) f) = length f.
Proof.
  intros Hall Hi. induction Hall as [|p f Hp _ IH]; [done|].
  destruct (lookup_lt_is_Some_2 (column_fields p.2) i) as [x Hx].
  - rewrite length_column_fields. lia.
  - simpl. rewrite Hx. simpl. by f_equal.
Qed.

(** X16: Every frame that [pd.DataFrame] accepts is written as a rectangular
    table: one header line and one line per row, each with exactly one
    field per column. *)
Theorem to_csv_rectangular (d f : list (string * column)) :
  make_frame d = Some f →
  length (to_csv f) = S (frame_length f)
  ∧ Forall (λ l : list field, length l = length f) (to_csv f).
Proof.
  intros Hmake.
  assert (Forall (λ p, column_length p.2 = frame_length f) f) as Hall.
  { unfold make_frame in Hmake. destruct d as [|[n c] r].
    - injection Hmake as <-. constructor.
    - destruct (forallb _ r) eqn:Hr; [|done]. injection Hmake as <-.
      simpl. constructor; [done|].
      apply Forall_forall. intros p Hp.
      rewrite forallb_forall in Hr.
      apply Nat.eqb_eq, Hr. by apply list_elem_of_In. }
  unfold to_csv, frame_rows. split.
  - simpl. by rewrite length_fmap, length_seq.
  - constructor; [by rewrite !length_fmap|].
    apply Forall_fmap, Forall_forall. intros i Hi%elem_of_seq. simpl.
    apply (length_row f (frame_length f)); [done|lia].
Qed.

(** *** What the console tells about the outcome *)

Lemma rule_text : rule = [text (repeat_string "=" 80)].
Proof. done. Qed.

Ltac not_a_printed_line H :=
  repeat first
    [ apply elem_of_app in H as [H|H]
    | apply elem_of_cons in H as [H|H]
    | apply not_elem_of_nil in H; destruct H
    | rewrite rule_text in H; vm_compute in H
    | discriminate H ].

Lemma success_not_before_section6 (df : DataFrame) (s : Series) :
  [text "Script execution completed successfully!"]
  ∉ (section1 df ++ [rule; [text "SECTION 2: EXTRACTING UKRAINE DATA"]; rule])
    ++ section2_found s ++ section3 s ++ section4 s
    ++ [rule; [text "SECTION 5: CREATING VISUALIZATIONS"]; rule].
Proof.
  intros H. unfold section1, section2_found, section3, section4 in H.
  not_a_printed_line H.
Qed.

(** X17: The line "Script execution completed successfully!" is printed exactly
    on the runs that wrote the figure and both CSV files. *)
Theorem success_line_iff_all_written (df : DataFrame) :
  [text "Script execution completed successfully!"] ∈ stdout (main df)
  ↔ ∃ summary export,
      files (main df)
      = [("ukraine_inflation_analysis.png", png);
         ("ukraine_inflation_summary.csv", csv summary);
         ("ukraine_inflation_timeseries.csv", csv export)].
Proof.
  unfold main.
  destruct (has_column "UA" df) eqn:Hhas.
  - destruct (getitem_Some _ _ Hhas) as (c & _ & Hget).
    unfold ua_ts. rewrite Hget. cbn [fmap option_fmap option_map].
    set (s := dropna (zip (seq 0 (length c)) c)).
    destruct (section5 s (rolling_mean_12m s) (rolling_volatility_12m s))
      as [|[|]].
    + rewrite export_df_Some.
      assert (∃ f, summary_df s = Some f) as [f ->] by (by eexists).
      cbn [stdout files]. split.
      * intros _. by eexists _, _.
      * intros _. rewrite !elem_of_app. right. right.
        unfold closing. rewrite !elem_of_cons. auto.
    + cbn [stdout files raised]. split.
      * intros H. exfalso.
        apply elem_of_app in H as [H|H];
          [by apply (success_not_before_section6 df s)|].
        unfold section5_saved in H. not_a_printed_line H.
      * intros (? & ? & [=]).
    + cbn [stdout files raised]. split.
      * intros H. exfalso. by apply (success_not_before_section6 df s).
      * intros (? & ? & [=]).
  - cbn [stdout files]. split.
    + intros H. exfalso. unfold section1, section2_missing in H.
      not_a_printed_line H.
    + intros (? & ? & [=]).
Qed.

End Script.

(** ** The theorems at concrete tables *)

Lemma rolling_12m_windows_witness :
  (15 < length (dropna (zip (seq 0 24) ua_1_to_24)))%nat
  ∧ values (rolling_mean_12m (dropna (zip (seq 0 24) ua_1_to_24))) !! 15%nat
    = Some (if decide (15 < 12 - 1)%nat then None
            else Some (arithmetic_mean
                         (trailing_window
                            (notna (values (dropna (zip (seq 0 24) ua_1_to_24))))
                            12 15)))
  ∧ values (rolling_volatility_12m sqrt_4dp (dropna (zip (seq 0 24) ua_1_to_24)))
      !! 15%nat
    = Some (if decide (15 < 12 - 1)%nat then None
            else Some (sample_std sqrt_4dp
                         (trailing_window
                            (notna (values (dropna (zip (seq 0 24) ua_1_to_24))))
                            12 15))).
Proof.
  assert (15 < length (dropna (zip (seq 0 24) ua_1_to_24)))%nat as Hi
    by (vm_compute; lia).
  split; [exact Hi|].
  exact (rolling_12m_windows sqrt_4dp (zip (seq 0 24) ua_1_to_24) 15 Hi).
Defined.

Lemma missing_column_halts_witness :
  has_column "UA" panel_without_ua = false
  ∧ ua_ts panel_without_ua = None
  ∧ stdout (main sqrt_4dp always_plotted panel_without_ua)
    = section1 panel_without_ua
      ++ [rule; [text "SECTION 2: EXTRACTING UKRAINE DATA"]; rule]
      ++ [[text "Warning: 'UA' column not found. Available columns:"];
          [list_of_str ["DE"; "FR"]]]
  ∧ files (main sqrt_4dp always_plotted panel_without_ua) = []
  ∧ exit_status (main sqrt_4dp always_plotted panel_without_ua) = 0%Z.
Proof.
  split; [reflexivity|].
  apply (missing_column_halts sqrt_4dp always_plotted panel_without_ua).
  reflexivity.
Defined.

(** C2 as the spec words it fails: on a table without ['UA'] the status the
    run leaves with is zero. *)
Lemma missing_column_nonzero_counterexample :
  has_column "UA" panel_without_ua = false
  ∧ ¬ (exit_status (main sqrt_4dp always_plotted panel_without_ua) ≠ 0%Z).
Proof. split; [reflexivity|]. intros Hne. by apply Hne. Qed.

(** C3 as the spec words it fails: the seventh and eighth labels are not
    "Avg Rolling Mean" and "Avg Rolling Vol". *)
Lemma summary_labels_counterexample :
  ∃ f,
    summary_df sqrt_4dp (dropna (zip (seq 0 24) ua_1_to_24)) = Some f
    ∧ (λ row : list field, row !! 0%nat) <$> frame_rows f
      ≠ (λ l, Some (text_field l))
          <$> ["Mean"; "Median"; "Std Dev"; "Min"; "Max"; "Range";
               "Avg Rolling Mean"; "Avg Rolling Vol"; "Observations"].
Proof. eexists. split; [reflexivity|]. vm_compute. discriminate. Qed.

Lemma std_value_single_witness :
  length [(0%nat, Some (Qc_of_nat 5))] = 1%nat
  ∧ std_value sqrt_4dp [(0%nat, Some (Qc_of_nat 5))] = None
  ∧ std_value sqrt_4dp [(0%nat, Some (Qc_of_nat 5))] ≠ Some 0.
Proof.
  split; [reflexivity|].
  apply (std_value_single sqrt_4dp [(0%nat, Some (Qc_of_nat 5))]).
  reflexivity.
Defined.

Lemma median_central_witness :
  dropna ua_with_gap ≠ []
  ∧ Sorted Qcle [Qc_of_nat 1; Qc_of_nat 2; Qc_of_nat 3; Qc_of_nat 4]
  ∧ [Qc_of_nat 1; Qc_of_nat 2; Qc_of_nat 3; Qc_of_nat 4]
      ≡ₚ notna (values (dropna ua_with_gap))
  ∧ median_value (dropna ua_with_gap)
    = Some (median_of_sorted
              [Qc_of_nat 1; Qc_of_nat 2; Qc_of_nat 3; Qc_of_nat 4])
  ∧ length [Qc_of_nat 1; Qc_of_nat 2; Qc_of_nat 3; Qc_of_nat 4]
    = length (dropna ua_with_gap).
Proof.
  assert (dropna ua_with_gap ≠ []) as Hne by (vm_compute; discriminate).
  assert (Sorted Qcle [Qc_of_nat 1; Qc_of_nat 2; Qc_of_nat 3; Qc_of_nat 4])
    as Hsorted by (repeat constructor; vm_compute; discriminate).
  assert ([Qc_of_nat 1; Qc_of_nat 2; Qc_of_nat 3; Qc_of_nat 4]
            ≡ₚ notna (values (dropna ua_with_gap))) as Hperm.
  { change (notna (values (dropna ua_with_gap)))
      with [Qc_of_nat 3; Qc_of_nat 1; Qc_of_nat 4; Qc_of_nat 2].
    solve_Permutation. }
  split; [exact Hne|]. split; [exact Hsorted|]. split; [exact Hperm|].
  exact (median_central ua_with_gap _ Hne Hsorted Hperm).
Defined.

Lemma range_is_max_minus_min_witness :
  dropna ua_with_gap ≠ []
  ∧ ∃ lo hi f,
      min_value (dropna ua_with_gap) = Some lo
      ∧ max_value (dropna ua_with_gap) = Some hi
      ∧ Some lo ∈ values (dropna ua_with_gap)
      ∧ Some hi ∈ values (dropna ua_with_gap)
      ∧ (∀ x, Some x ∈ values (dropna ua_with_gap) → lo ≤ x ∧ x ≤ hi)
      ∧ summary_df sqrt_4dp (dropna ua_with_gap) = Some f
      ∧ statistic_value f "Range" = Some (Some (hi - lo)).
Proof.
  assert (dropna ua_with_gap ≠ []) as Hne by (vm_compute; discriminate).
  split; [exact Hne|].
  exact (range_is_max_minus_min sqrt_4dp ua_with_gap Hne).
Defined.

Lemma observations_row_witness :
  has_column "UA" panel_with_ua = true
  ∧ ∃ col s f,
      getitem panel_with_ua "UA" = Some col ∧ ua_ts panel_with_ua = Some s
      ∧ summary_df sqrt_4dp s = Some f
      ∧ statistic_value f "Observations" = Some (Some (Qc_of_nat (length s)))
      ∧ length s = length (filter is_Some (values col)).
Proof.
  split; [reflexivity|].
  apply (observations_row sqrt_4dp panel_with_ua). reflexivity.
Defined.

Lemma scenario_1_to_24_witness :
  values <$> getitem panel_1_to_24 "UA" = Some ua_1_to_24
  ∧ ∃ s,
      ua_ts panel_1_to_24 = Some s
      ∧ mean_value s = Some (Q2Qc (25 # 2))
      ∧ median_value s = Some (Q2Qc (25 # 2))
      ∧ cell_sub (max_value s) (min_value s) = Some (Q2Qc 23)
      ∧ values (rolling_mean_12m s) !! 11%nat = Some (Some (Q2Qc (13 # 2)))
      ∧ ∀ i, (i ≤ 10)%nat → values (rolling_mean_12m s) !! i = Some None.
Proof.
  split; [reflexivity|].
  apply (scenario_1_to_24 panel_1_to_24). reflexivity.
Defined.

(** ** The further properties at concrete tables *)


Lemma median_between_min_and_max_witness :
  dropna ua_with_gap ≠ []
  ∧ ∃ lo md hi,
      min_value (dropna ua_with_gap) = Some lo
      ∧ median_value (dropna ua_with_gap) = Some md
      ∧ max_value (dropna ua_with_gap) = Some hi ∧ lo ≤ md ∧ md ≤ hi
      ∧ (Nat.even (length (dropna ua_with_gap)) = false →
         Some md ∈ values (dropna ua_with_gap)).
Proof.
  assert (dropna ua_with_gap ≠ []) as Hne by (vm_compute; discriminate).
  split; [exact Hne|]. exact (median_between_min_and_max ua_with_gap Hne).
Defined.



Lemma short_series_has_no_rolling_statistics_witness :
  (length (dropna ua_with_gap) < 12)%nat
  ∧ values (rolling_mean_12m (dropna ua_with_gap))
    = replicate (length (dropna ua_with_gap)) None
  ∧ values (rolling_volatility_12m sqrt_4dp (dropna ua_with_gap))
    = replicate (length (dropna ua_with_gap)) None
  ∧ ∃ f, summary_df sqrt_4dp (dropna ua_with_gap) = Some f
         ∧ statistic_value f "Avg Rolling Mean (12m)" = Some None
         ∧ statistic_value f "Avg Rolling Vol (12m)" = Some None.
Proof.
  assert (length (dropna ua_with_gap) < 12)%nat as Hlen by (vm_compute; lia).
  split; [exact Hlen|].
  exact (short_series_has_no_rolling_statistics sqrt_4dp _ Hlen).
Defined.

Lemma gap_positions_do_not_matter_witness :
  notna (values ua_with_gap) = notna (values ua_gap_moved)
  ∧ summary_df sqrt_4dp (dropna ua_with_gap)
    = summary_df sqrt_4dp (dropna ua_gap_moved)
  ∧ export_df sqrt_4dp (dropna ua_with_gap)
    = export_df sqrt_4dp (dropna ua_gap_moved).
Proof.
  split; [reflexivity|].
  apply (gap_positions_do_not_matter sqrt_4dp ua_with_gap ua_gap_moved).
  reflexivity.
Defined.

Lemma rolling_defined_entries_witness :
  (12 ≤ length (dropna series_1_to_24))%nat
  ∧ notna (values (rolling_mean_12m (dropna series_1_to_24)))
    = (λ i, arithmetic_mean
              (trailing_window (notna (values (dropna series_1_to_24))) 12 i))
        <$> seq 11 (length (dropna series_1_to_24) - 11)
  ∧ notna (values (rolling_volatility_12m sqrt_4dp (dropna series_1_to_24)))
    = (λ i, sample_std sqrt_4dp
              (trailing_window (notna (values (dropna series_1_to_24))) 12 i))
        <$> seq 11 (length (dropna series_1_to_24) - 11).
Proof.
  assert (12 ≤ length (dropna series_1_to_24))%nat as Hlen
    by (vm_compute; lia).
  split; [exact Hlen|].
  exact (rolling_defined_entries sqrt_4dp series_1_to_24 Hlen).
Defined.



Lemma extraction_keeps_row_labels_witness :
  getitem panel_with_ua "UA" = Some ua_with_gap
  ∧ index ua_with_gap = seq 0 (length ua_with_gap)
  ∧ dropna ua_with_gap `sublist_of` ua_with_gap
  ∧ (∀ k v, (k, v) ∈ dropna ua_with_gap
            ↔ is_Some v ∧ ua_with_gap !! k = Some (k, v))
  ∧ StronglySorted lt (index (dropna ua_with_gap)).
Proof.
  split; [reflexivity|].
  apply (extraction_keeps_row_labels panel_with_ua ua_with_gap). reflexivity.
Defined.

Lemma all_missing_column_witness :
  Forall (λ p : nat * option Qc, p.2 = None) [(0%nat, None); (1%nat, None)]
  ∧ dropna [(0%nat, None); (1%nat, @None Qc)] = []
  ∧ mean_value (dropna [(0%nat, None); (1%nat, None)]) = None
  ∧ median_value (dropna [(0%nat, None); (1%nat, None)]) = None
  ∧ std_value sqrt_4dp (dropna [(0%nat, None); (1%nat, None)]) = None
  ∧ min_value (dropna [(0%nat, None); (1%nat, None)]) = None
  ∧ max_value (dropna [(0%nat, None); (1%nat, None)]) = None
  ∧ ∃ f e,
      summary_df sqrt_4dp (dropna [(0%nat, None); (1%nat, None)]) = Some f
      ∧ statistic_value f "Range" = Some None
      ∧ statistic_value f "Observations" = Some (Some (Qc_of_nat 0))
      ∧ export_df sqrt_4dp (dropna [(0%nat, None); (1%nat, None)]) = Some e
      ∧ to_csv e = [[text_field "Inflation"; text_field "Rolling_Mean_12m";
                     text_field "Rolling_Volatility_12m"]].
Proof.
  assert (Forall (λ p : nat * option Qc, p.2 = None)
            [(0%nat, None); (1%nat, None)]) as Hall
    by (repeat constructor).
  split; [exact Hall|]. exact (all_missing_column sqrt_4dp _ Hall).
Defined.

Lemma single_observation_witness :
  dropna [(0%nat, None); (1%nat, Some (Qc_of_nat 5))]
  = [(1%nat, Some (Qc_of_nat 5))]
  ∧ mean_value (dropna [(0%nat, None); (1%nat, Some (Qc_of_nat 5))])
    = Some (Qc_of_nat 5)
  ∧ median_value (dropna [(0%nat, None); (1%nat, Some (Qc_of_nat 5))])
    = Some (Qc_of_nat 5)
  ∧ min_value (dropna [(0%nat, None); (1%nat, Some (Qc_of_nat 5))])
    = Some (Qc_of_nat 5)
  ∧ max_value (dropna [(0%nat, None); (1%nat, Some (Qc_of_nat 5))])
    = Some (Qc_of_nat 5)
  ∧ cell_sub (max_value (dropna [(0%nat, None); (1%nat, Some (Qc_of_nat 5))]))
             (min_value (dropna [(0%nat, None); (1%nat, Some (Qc_of_nat 5))]))
    = Some 0.
Proof.
  split; [reflexivity|].
  apply (single_observation [(0%nat, None); (1%nat, Some (Qc_of_nat 5))]
           1 (Qc_of_nat 5)).
  reflexivity.
Defined.

Lemma other_columns_do_not_matter_witness :
  getitem panel_with_ua "UA" = getitem panel_other_regions "UA"
  ∧ files (main sqrt_4dp always_plotted panel_with_ua)
    = files (main sqrt_4dp always_plotted panel_other_regions)
  ∧ exit_status (main sqrt_4dp always_plotted panel_with_ua)
    = exit_status (main sqrt_4dp always_plotted panel_other_regions).
Proof.
  split; [reflexivity|].
  apply (other_columns_do_not_matter sqrt_4dp always_plotted
           panel_with_ua panel_other_regions).
  reflexivity.
Defined.

Lemma to_csv_rectangular_witness :
  make_frame two_columns = Some two_columns
  ∧ length (to_csv two_columns) = S (frame_length two_columns)
  ∧ Forall (λ l : list field, length l = length two_columns)
           (to_csv two_columns).
Proof.
  split; [reflexivity|].
  apply (to_csv_rectangular two_columns two_columns). reflexivity.
Defined.
